(** * The feature-dev chat connector of the Amazon Q webview

    A shallow embedding of
    [src/amazonq/webview/ui/apps/featureDevChatConnector.ts]: the class
    [Connector], which relays UI actions to the extension host as command
    envelopes and turns the host's messages into calls of the callbacks it
    was constructed with. *)

From Stdlib Require Import ZArith String List.
From stdpp Require Import gmap strings.

Local Open Scope string_scope.

(** ** JavaScript values *)

(** The envelopes are plain data ([messageData : any] on the way in, an
    [ExtensionMessage] on the way out); numbers are restricted to integers,
    which is all that [Array.prototype.length] yields. *)
#[warnings="-register-all"]
Inductive JsVal : Type :=
| JUndefined
| JNull
| JBool (b : bool)
| JNum (n : Z)
| JStr (s : string)
| JArr (elems : list JsVal)
| JObj (props : list (string * JsVal)).

(** An envelope is an object used as a flat mapping.  Reading a key that is
    not there gives [undefined], as does reading a key that holds
    [undefined]. *)
Abbreviation Envelope := (gmap string JsVal).

Definition field (o : Envelope) (k : string) : JsVal :=
  default JUndefined (o !! k).

(** An object literal [{ k1: v1, ..., kn: vn }] with distinct keys. *)
Definition object_literal (l : list (string * JsVal)) : Envelope :=
  foldr (fun kv o => <[kv.1 := kv.2]> o) ∅ l.

(** [v === 'lit'] against a string literal. *)
Definition strict_eq_str (v : JsVal) (lit : string) : bool :=
  match v with
  | JStr s => bool_decide (s = lit)
  | _ => false
  end.

(** [v !== undefined]. *)
Definition is_defined (v : JsVal) : bool :=
  match v with
  | JUndefined => false
  | _ => true
  end.

(** [a ?? b]: the right operand is taken exactly when the left one is
    [undefined] or [null]. *)
Definition nullish (v : JsVal) : bool :=
  match v with
  | JUndefined | JNull => true
  | _ => false
  end.

Definition coalesce (a b : JsVal) : JsVal := if nullish a then b else a.

Infix "??" := coalesce (at level 45, left associativity).

Definition of_optional_string (o : option string) : JsVal :=
  match o with
  | Some s => JStr s
  | None => JUndefined
  end.

Definition of_optional_array (o : option (list JsVal)) : JsVal :=
  match o with
  | Some l => JArr l
  | None => JUndefined
  end.

(** ** Effects *)

(** What a call can throw: the [TypeError] of the language itself (calling
    what is not a function, reading a property of [null]), or whatever a
    callback raises. *)
Inductive Exn : Type :=
| TypeError
| Raised (v : JsVal).

Inductive Completion (A : Type) : Type :=
| Normal (a : A)
| Throw (e : Exn).

Arguments Normal {A} a.
Arguments Throw {A} e.

(** A computation over the world [W] that the callbacks and the transport
    act on.  An [async] function whose body waits on nothing that is still
    pending is such a computation too: [Normal] is its promise fulfilled,
    [Throw] its promise rejected, and [await f(x)] of it is a bind. *)
Definition Eff (W A : Type) : Type := W -> Completion A * W.

Definition ret {W A} (a : A) : Eff W A := fun w => (Normal a, w).

Definition throw {W A} (e : Exn) : Eff W A := fun w => (Throw e, w).

Definition bind {W A B} (m : Eff W A) (k : A -> Eff W B) : Eff W B :=
  fun w =>
    match m w with
    | (Normal a, w') => k a w'
    | (Throw e, w') => (Throw e, w')
    end.

Notation "x <- m ;; k" := (bind m (fun x => k))
  (at level 100, m at next level, right associativity).
Notation "m ;; k" := (bind m (fun _ => k))
  (at level 100, right associativity).

(** [await p] of the promise an [async] function of this file returned. *)
Definition await {W A} (promise : Eff W A) : Eff W A := promise.

Definition lift_completion {W A} (c : Completion A) : Eff W A := fun w => (c, w).

(** Calling a slot that may hold [undefined]: [undefined(...)] is a
    [TypeError]. *)
Definition call {W F} (f : option F) (apply : F -> Eff W unit) : Eff W unit :=
  match f with
  | Some g => apply g
  | None => throw TypeError
  end.

(** ** Promises built with [new Promise(executor)] *)

Inductive Promise (A : Type) : Type :=
| Pending
| Fulfilled (a : A)
| Rejected (e : Exn).

Arguments Pending {A}.
Arguments Fulfilled {A} a.
Arguments Rejected {A} e.

(** Only a pending promise can be settled. *)
Definition settle {A} (outcome p : Promise A) : Promise A :=
  match p with
  | Pending => outcome
  | _ => p
  end.

(** The two functions handed to the executor act on the promise's cell,
    which sits next to the world while the executor runs. *)
Definition resolve {W A} (a : A) : Eff (W * Promise A) unit :=
  fun s => (Normal tt, (s.1, settle (Fulfilled a) s.2)).

Definition reject {W A} (e : Exn) : Eff (W * Promise A) unit :=
  fun s => (Normal tt, (s.1, settle (Rejected e) s.2)).

(** Code that knows nothing of the cell leaves it alone. *)
Definition outside {W A B} (m : Eff W B) : Eff (W * Promise A) B :=
  fun s => let (c, w') := m s.1 in (c, (w', s.2)).

(** The constructor runs the executor at once; an exception escaping the
    executor rejects the promise (if it is still pending). *)
Definition new_Promise {W A}
    (executor : (A -> Eff (W * Promise A) unit) ->
                (Exn -> Eff (W * Promise A) unit) ->
                Eff (W * Promise A) unit) : Eff W (Promise A) :=
  fun w =>
    match executor resolve reject (w, Pending) with
    | (Normal _, (w', p)) => (Normal p, w')
    | (Throw e, (w', p)) => (Normal (settle (Rejected e) p), w')
    end.

(** ** Property reads and comparisons used by the connector *)

(** The property read [v.length].  A string's length is counted here in
    bytes and by the language in UTF-16 code units; the two are zero
    together. *)
Definition get_length (v : JsVal) : Completion JsVal :=
  match v with
  | JUndefined | JNull => Throw TypeError
  | JBool _ | JNum _ => Normal JUndefined
  | JStr s => Normal (JNum (Z.of_nat (String.length s)))
  | JArr l => Normal (JNum (Z.of_nat (List.length l)))
  | JObj o =>
      Normal (default JUndefined
                (snd <$> List.find (fun kv => bool_decide (kv.1 = "length")) o))
  end.

Section Comparison.

(** [v > 0] converts [v] to a number first.  For a string, an array or an
    object that conversion goes through the numeric-literal grammar and
    [toString]; it is left open, and everything below holds whatever it
    is. *)
Variable coerced_gt_zero : JsVal -> bool.

Definition gt_zero (v : JsVal) : bool :=
  match v with
  | JUndefined => false
  | JNull => false
  | JBool b => b
  | JNum n => (0 <? n)%Z
  | JStr _ | JArr _ | JObj _ => coerced_gt_zero v
  end.

(** [v !== undefined && v.length > 0]. *)
Definition defined_and_nonempty (v : JsVal) : Completion bool :=
  if is_defined v then
    match get_length v with
    | Normal n => Normal (gt_zero n)
    | Throw e => Throw e
    end
  else Normal false.

End Comparison.

(** ** Chat items *)

(** The [followUp] block of a [ChatItem]. *)
Record FollowUpBlock : Type := {
  text : string;
  options : JsVal;
}.

(** The object literals the connector builds as [ChatItem]; a [followUp]
    of [None] is [undefined]. *)
Record ChatItem : Type := {
  type : JsVal;
  body : JsVal;
  messageId : JsVal;
  relatedContent : JsVal;
  canBeVoted : JsVal;
  followUp : option FollowUpBlock;
}.

Record ChatPayload : Type := {
  chatMessage : string;
}.

(** ** The connector *)

(** [ConnectorProps].  The interface declares [onMessageReceived],
    [onChatAnswerReceived] and [sendFeedback] optional and the other
    callbacks required; a slot is an [option] all the same, since nothing
    at run time keeps a caller from leaving one out.  [tabsStorage], which
    the connector never reads, is left out. *)
Module ConnectorProps.
Record t (W : Type) : Type := {
  sendMessageToExtension : Envelope -> Eff W unit;
  onMessageReceived : option (JsVal -> JsVal -> JsVal -> Eff W unit);
  onAsyncEventProgress : option (JsVal -> JsVal -> JsVal -> Eff W unit);
  onChatAnswerReceived : option (JsVal -> ChatItem -> Eff W unit);
  sendFeedback : option (JsVal -> JsVal -> Eff W unit);
  onError : option (JsVal -> JsVal -> JsVal -> Eff W unit);
  onWarning : option (JsVal -> JsVal -> JsVal -> Eff W unit);
  onUpdatePlaceholder : option (JsVal -> JsVal -> Eff W unit);
  onChatInputEnabled : option (JsVal -> JsVal -> Eff W unit);
  onUpdateAuthentication : option (JsVal -> Eff W unit);
}.
Arguments sendMessageToExtension {W} _.
Arguments onMessageReceived {W} _.
Arguments onAsyncEventProgress {W} _.
Arguments onChatAnswerReceived {W} _.
Arguments sendFeedback {W} _.
Arguments onError {W} _.
Arguments onWarning {W} _.
Arguments onUpdatePlaceholder {W} _.
Arguments onChatInputEnabled {W} _.
Arguments onUpdateAuthentication {W} _.

End ConnectorProps.

(** The private fields of [class Connector]. *)
Record Connector (W : Type) : Type := {
  sendMessageToExtension : Envelope -> Eff W unit;
  onError : option (JsVal -> JsVal -> JsVal -> Eff W unit);
  onWarning : option (JsVal -> JsVal -> JsVal -> Eff W unit);
  onChatAnswerReceived : option (JsVal -> ChatItem -> Eff W unit);
  onAsyncEventProgress : option (JsVal -> JsVal -> JsVal -> Eff W unit);
  updatePlaceholder : option (JsVal -> JsVal -> Eff W unit);
  chatInputEnabled : option (JsVal -> JsVal -> Eff W unit);
  onUpdateAuthentication : option (JsVal -> Eff W unit);
}.

Arguments sendMessageToExtension {W} _.
Arguments onError {W} _.
Arguments onWarning {W} _.
Arguments onChatAnswerReceived {W} _.
Arguments onAsyncEventProgress {W} _.
Arguments updatePlaceholder {W} _.
Arguments chatInputEnabled {W} _.
Arguments onUpdateAuthentication {W} _.

(** [constructor(props: ConnectorProps)]. *)
Definition new_Connector {W} (props : ConnectorProps.t W) : Connector W := {|
  sendMessageToExtension := ConnectorProps.sendMessageToExtension props;
  onChatAnswerReceived := ConnectorProps.onChatAnswerReceived props;
  onWarning := ConnectorProps.onWarning props;
  onError := ConnectorProps.onError props;
  onAsyncEventProgress := ConnectorProps.onAsyncEventProgress props;
  updatePlaceholder := ConnectorProps.onUpdatePlaceholder props;
  chatInputEnabled := ConnectorProps.onChatInputEnabled props;
  onUpdateAuthentication := ConnectorProps.onUpdateAuthentication props;
|}.

(** *** Outbound operations *)

Section Outbound.

Context {W : Type}.
Variable this : Connector W.

Definition onCodeInsertToCursorPosition (tabID : string) (code : option string)
    (type : option string) (codeReference : option (list JsVal)) : Eff W unit :=
  sendMessageToExtension this (object_literal [
    ("tabID", JStr tabID);
    ("code", of_optional_string code);
    ("command", JStr "insert_code_at_cursor_position");
    ("codeReference", of_optional_array codeReference);
    ("tabType", JStr "featuredev")
  ]).

Definition onCopyCodeToClipboard (tabID : string) (code : option string)
    (type : option string) (codeReference : option (list JsVal)) : Eff W unit :=
  sendMessageToExtension this (object_literal [
    ("tabID", JStr tabID);
    ("code", of_optional_string code);
    ("command", JStr "code_was_copied_to_clipboard");
    ("codeReference", of_optional_array codeReference);
    ("tabType", JStr "featuredev")
  ]).

Definition onOpenDiff (tabID leftPath rightPath : string) : Eff W unit :=
  sendMessageToExtension this (object_literal [
    ("command", JStr "open-diff");
    ("tabID", JStr tabID);
    ("leftPath", JStr leftPath);
    ("rightPath", JStr rightPath);
    ("tabType", JStr "featuredev")
  ]).

Definition followUpClicked (tabID : string) (followUp : JsVal) : Eff W unit :=
  sendMessageToExtension this (object_literal [
    ("command", JStr "follow-up-was-clicked");
    ("followUp", followUp);
    ("tabID", JStr tabID);
    ("tabType", JStr "featuredev")
  ]).

Definition requestGenerativeAIAnswer (tabID : string) (payload : ChatPayload)
    : Eff W (Promise JsVal) :=
  new_Promise (fun resolve reject =>
    outside (sendMessageToExtension this (object_literal [
      ("tabID", JStr tabID);
      ("command", JStr "chat-prompt");
      ("chatMessage", JStr (chatMessage payload));
      ("tabType", JStr "featuredev")
    ]))).

Definition onStopChatResponse (tabID : string) : Eff W unit :=
  sendMessageToExtension this (object_literal [
    ("tabID", JStr tabID);
    ("command", JStr "stop-response")
  ]).

Definition onTabOpen (tabID : string) : Eff W unit :=
  sendMessageToExtension this (object_literal [
    ("tabID", JStr tabID);
    ("command", JStr "new-tab-was-created");
    ("tabType", JStr "featuredev")
  ]).

Definition onTabRemove (tabID : string) : Eff W unit :=
  sendMessageToExtension this (object_literal [
    ("tabID", JStr tabID);
    ("command", JStr "tab-was-removed");
    ("tabType", JStr "featuredev")
  ]).

(** [// TODO implement telemetry]: the body is empty. *)
Definition sendFeedback (tabId : string) (feedbackPayload : JsVal) : Eff W unit :=
  ret tt.

Definition onChatItemVoted (tabId messageId vote : string) : Eff W unit :=
  sendMessageToExtension this (object_literal [
    ("tabID", JStr tabId);
    ("messageId", JStr messageId);
    ("vote", JStr vote);
    ("command", JStr "chat-item-voted");
    ("tabType", JStr "featuredev")
  ]).

End Outbound.

(** *** Inbound messages *)

Section Inbound.

Context {W : Type}.

(** [ChatItemType.SYSTEM_PROMPT] and [ChatItemType.CODE_RESULT], members
    of a string enum of the UI library, whatever their values. *)
Variables SYSTEM_PROMPT CODE_RESULT : string.

Variable coerced_gt_zero : JsVal -> bool.

Variable this : Connector W.

Definition processChatMessage (messageData : Envelope) : Eff W unit :=
  if bool_decide (is_Some (onChatAnswerReceived this)) then
    hasFollowUps <- lift_completion
      (defined_and_nonempty coerced_gt_zero (field messageData "followUps")) ;;
    let answer := {|
      type := field messageData "messageType";
      body := field messageData "message" ?? JUndefined;
      messageId := field messageData "messageID" ?? field messageData "triggerID" ?? JStr "";
      relatedContent := JUndefined;
      canBeVoted := field messageData "canBeVoted";
      followUp :=
        if hasFollowUps then
          Some {|
            text :=
              if strict_eq_str (field messageData "messageType") SYSTEM_PROMPT
              then ""
              else "Please follow up with one of these";
            options := field messageData "followUps";
          |}
        else None;
    |} in
    call (onChatAnswerReceived this) (fun f => f (field messageData "tabID") answer)
  else ret tt.

Definition processFilePathMessage (messageData : Envelope) : Eff W unit :=
  if bool_decide (is_Some (onChatAnswerReceived this)) then
    let answer := {|
      type := JStr CODE_RESULT;
      body := field messageData "filePaths";
      relatedContent := JUndefined;
      followUp := None;
      canBeVoted := JBool true;
      messageId :=
        field messageData "messageID" ?? field messageData "triggerID"
          ?? field messageData "conversationID";
    |} in
    call (onChatAnswerReceived this) (fun f => f (field messageData "tabID") answer)
  else ret tt.

Definition handleMessageReceive (messageData : Envelope) : Eff W unit :=
  if strict_eq_str (field messageData "type") "errorMessage" then
    call (onError this) (fun f =>
      f (field messageData "tabID") (field messageData "message") (field messageData "title"))
  else if strict_eq_str (field messageData "type") "showInvalidTokenNotification" then
    call (onWarning this) (fun f =>
      f (field messageData "tabID") (field messageData "message") (field messageData "title"))
  else if strict_eq_str (field messageData "type") "chatMessage" then
    await (processChatMessage messageData)
  else if strict_eq_str (field messageData "type") "filePathMessage" then
    await (processFilePathMessage messageData)
  else if strict_eq_str (field messageData "type") "asyncEventProgressMessage" then
    call (onAsyncEventProgress this) (fun f =>
      f (field messageData "tabID") (field messageData "inProgress")
        (field messageData "message" ?? JUndefined))
  else if strict_eq_str (field messageData "type") "updatePlaceholderMessage" then
    call (updatePlaceholder this) (fun f =>
      f (field messageData "tabID") (field messageData "newPlaceholder"))
  else if strict_eq_str (field messageData "type") "chatInputEnabledMessage" then
    call (chatInputEnabled this) (fun f =>
      f (field messageData "tabID") (field messageData "enabled"))
  else if strict_eq_str (field messageData "type") "authenticationUpdateMessage" then
    call (onUpdateAuthentication this) (fun f => f (field messageData "featureDevEnabled"))
  else ret tt.

End Inbound.

(** * Vocabulary of the properties *)

(** ** A recording world *)

(** Callbacks and a transport that only write down that they were called,
    and with what: the world is the list of calls so far. *)
Inductive Event : Type :=
| Sent (message : Envelope)
| ErrorShown (tabID message title : JsVal)
| WarningShown (tabID message title : JsVal)
| AnswerReceived (tabID : JsVal) (item : ChatItem)
| ProgressShown (tabID inProgress message : JsVal)
| PlaceholderUpdated (tabID newPlaceholder : JsVal)
| ChatInputSet (tabID enabled : JsVal)
| AuthenticationUpdated (featureDevEnabled : JsVal).

Definition record (ev : Event) : Eff (list Event) unit :=
  fun log => (Normal tt, (log ++ [ev])%list).

Definition recording_props : ConnectorProps.t (list Event) := {|
  ConnectorProps.sendMessageToExtension := fun message => record (Sent message);
  ConnectorProps.onMessageReceived := None;
  ConnectorProps.onAsyncEventProgress := Some (fun t p m => record (ProgressShown t p m));
  ConnectorProps.onChatAnswerReceived := Some (fun t item => record (AnswerReceived t item));
  ConnectorProps.sendFeedback := None;
  ConnectorProps.onError := Some (fun t m title => record (ErrorShown t m title));
  ConnectorProps.onWarning := Some (fun t m title => record (WarningShown t m title));
  ConnectorProps.onUpdatePlaceholder := Some (fun t p => record (PlaceholderUpdated t p));
  ConnectorProps.onChatInputEnabled := Some (fun t e => record (ChatInputSet t e));
  ConnectorProps.onUpdateAuthentication := Some (fun e => record (AuthenticationUpdated e));
|}.


(** Props with a recording transport and no callback at all. *)
Definition bare_props : ConnectorProps.t (list Event) := {|
  ConnectorProps.sendMessageToExtension := fun message => record (Sent message);
  ConnectorProps.onMessageReceived := None;
  ConnectorProps.onAsyncEventProgress := None;
  ConnectorProps.onChatAnswerReceived := None;
  ConnectorProps.sendFeedback := None;
  ConnectorProps.onError := None;
  ConnectorProps.onWarning := None;
  ConnectorProps.onUpdatePlaceholder := None;
  ConnectorProps.onChatInputEnabled := None;
  ConnectorProps.onUpdateAuthentication := None;
|}.

(** The envelopes the recording transport was given. *)
Definition sent_messages (log : list Event) : list Envelope :=
  omap (fun ev => match ev with Sent e => Some e | _ => None end) log.

(** The identifier of the chat item that the recording callback was given,
    if the log is that one call. *)
Definition recorded_message_id (run : Completion unit * list Event) : option JsVal :=
  match run with
  | (Normal _, [AnswerReceived _ item]) => Some (messageId item)
  | _ => None
  end.

(** An inbound envelope run against the recording callbacks, from an empty
    record. *)
Definition recorded_run (m : list (string * JsVal)) : Completion unit * list Event :=
  handleMessageReceive "system-prompt" "code-result" (fun _ => false)
    (new_Connector recording_props) (object_literal m) [].

(** ** Outbound envelopes *)

(** The operation hands the envelope [e] to the transport and does nothing
    else, whatever the transport is. *)
Definition hands_over (op : forall W, Connector W -> Eff W unit) (e : Envelope) : Prop :=
  forall W (this : Connector W), op W this = sendMessageToExtension this e.

(** The envelope names the tab and carries the session tag. *)
Definition tagged (tabID : string) (e : Envelope) : Prop :=
  e !! "tabID" = Some (JStr tabID) /\ e !! "tabType" = Some (JStr "featuredev").

(** The state of a promise whose executor did nothing but call the
    transport. *)
Definition promise_after {A} (c : Completion unit) : Promise A :=
  match c with
  | Normal _ => Pending
  | Throw e => Rejected e
  end.

(** The same connector over another transport. *)
Definition with_transport {W} (send : Envelope -> Eff W unit) (this : Connector W)
    : Connector W := {|
  sendMessageToExtension := send;
  onError := onError this;
  onWarning := onWarning this;
  onChatAnswerReceived := onChatAnswerReceived this;
  onAsyncEventProgress := onAsyncEventProgress this;
  updatePlaceholder := updatePlaceholder this;
  chatInputEnabled := chatInputEnabled this;
  onUpdateAuthentication := onUpdateAuthentication this;
|}.

(** ** Outcomes of an inbound envelope *)

(** The [type] values that [handleMessageReceive] tests for, in the order
    of its tests. *)
Definition discriminators : list string := [
  "errorMessage";
  "showInvalidTokenNotification";
  "chatMessage";
  "filePathMessage";
  "asyncEventProgressMessage";
  "updatePlaceholderMessage";
  "chatInputEnabledMessage";
  "authenticationUpdateMessage"
].

(** Nothing at all, a [TypeError] raised before any callback ran, or one
    call of one of the connector's callbacks. *)
Inductive Outcome {W} (this : Connector W) (run : Eff W unit) : Prop :=
| Dropped :
    (forall w, run w = (Normal tt, w)) -> Outcome this run
| Faulted :
    (forall w, run w = (Throw TypeError, w)) -> Outcome this run
| Called_onError f tabID message title :
    onError this = Some f ->
    (forall w, run w = f tabID message title w) -> Outcome this run
| Called_onWarning f tabID message title :
    onWarning this = Some f ->
    (forall w, run w = f tabID message title w) -> Outcome this run
| Called_onChatAnswerReceived f tabID item :
    onChatAnswerReceived this = Some f ->
    (forall w, run w = f tabID item w) -> Outcome this run
| Called_onAsyncEventProgress f tabID inProgress message :
    onAsyncEventProgress this = Some f ->
    (forall w, run w = f tabID inProgress message w) -> Outcome this run
| Called_updatePlaceholder f tabID newPlaceholder :
    updatePlaceholder this = Some f ->
    (forall w, run w = f tabID newPlaceholder w) -> Outcome this run
| Called_chatInputEnabled f tabID enabled :
    chatInputEnabled this = Some f ->
    (forall w, run w = f tabID enabled w) -> Outcome this run
| Called_onUpdateAuthentication f featureDevEnabled :
    onUpdateAuthentication this = Some f ->
    (forall w, run w = f featureDevEnabled w) -> Outcome this run.

(** The seven callback slots that the constructor copies. *)
Inductive Slot : Type :=
| Slot_onChatAnswerReceived
| Slot_onAsyncEventProgress
| Slot_onError
| Slot_onWarning
| Slot_onUpdatePlaceholder
| Slot_onChatInputEnabled
| Slot_onUpdateAuthentication.

Definition omitted {W} (s : Slot) (props : ConnectorProps.t W) : Prop :=
  match s with
  | Slot_onChatAnswerReceived => ConnectorProps.onChatAnswerReceived props = None
  | Slot_onAsyncEventProgress => ConnectorProps.onAsyncEventProgress props = None
  | Slot_onError => ConnectorProps.onError props = None
  | Slot_onWarning => ConnectorProps.onWarning props = None
  | Slot_onUpdatePlaceholder => ConnectorProps.onUpdatePlaceholder props = None
  | Slot_onChatInputEnabled => ConnectorProps.onChatInputEnabled props = None
  | Slot_onUpdateAuthentication => ConnectorProps.onUpdateAuthentication props = None
  end.

(** The discriminators whose envelopes go to the slot. *)
Definition served_by (s : Slot) : list string :=
  match s with
  | Slot_onChatAnswerReceived => ["chatMessage"; "filePathMessage"]
  | Slot_onAsyncEventProgress => ["asyncEventProgressMessage"]
  | Slot_onError => ["errorMessage"]
  | Slot_onWarning => ["showInvalidTokenNotification"]
  | Slot_onUpdatePlaceholder => ["updatePlaceholderMessage"]
  | Slot_onChatInputEnabled => ["chatInputEnabledMessage"]
  | Slot_onUpdateAuthentication => ["authenticationUpdateMessage"]
  end.

(** No callback runs, nothing is raised, nothing changes. *)
Definition silently_dropped {W} SP CR coerced (this : Connector W) (m : Envelope) : Prop :=
  forall w, handleMessageReceive SP CR coerced this m w = (Normal tt, w).

(** The reading of the spec: leaving out any of the seven callbacks turns
    its envelopes into no-ops. *)
Definition every_omitted_callback_drops (W : Type) : Prop :=
  forall SP CR coerced (s : Slot) (props : ConnectorProps.t W) d m,
    omitted s props ->
    In d (served_by s) ->
    field m "type" = JStr d ->
    silently_dropped SP CR coerced (new_Connector props) m.

(** ** Chat items as the spec describes them *)








(** ** Sample envelopes *)





Definition prompt_with_followUps : Envelope :=
  object_literal [("type", JStr "chatMessage"); ("tabID", JStr "tab-1");
                  ("messageType", JStr "system-prompt");
                  ("followUps", JArr [JObj [("pillText", JStr "Retry")]])].

Definition answer_without_followUps : Envelope :=
  object_literal [("type", JStr "chatMessage"); ("tabID", JStr "tab-1");
                  ("messageType", JStr "answer"); ("message", JStr "done");
                  ("followUps", JArr [])].

Definition generated_files : Envelope :=
  object_literal [("type", JStr "filePathMessage"); ("tabID", JStr "tab-1");
                  ("filePaths", JArr [JStr "src/a.ts"; JStr "src/b.ts"]);
                  ("canBeVoted", JBool false); ("messageType", JStr "answer");
                  ("followUps", JArr [JObj [("pillText", JStr "Accept")]]);
                  ("conversationID", JStr "C")].


Definition null_followUps : Envelope :=
  object_literal [("type", JStr "chatMessage"); ("tabID", JStr "tab-1");
                  ("messageType", JStr "answer"); ("message", JStr "done");
                  ("followUps", JNull)].

(** ** Outbound calls *)

(** One call of an outbound operation, with its arguments. *)
Inductive Call : Type :=
| InsertCode (tabID : string) (code type : option string)
    (codeReference : option (list JsVal))
| CopyCode (tabID : string) (code type : option string)
    (codeReference : option (list JsVal))
| OpenDiff (tabID leftPath rightPath : string)
| FollowUpClick (tabID : string) (followUp : JsVal)
| ChatPrompt (tabID : string) (payload : ChatPayload)
| StopResponse (tabID : string)
| TabOpen (tabID : string)
| TabRemove (tabID : string)
| Vote (tabId messageId vote : string).

(** The call made on a connector; the promise of a chat prompt is let go. *)
Definition perform {W} (this : Connector W) (c : Call) : Eff W unit :=
  match c with
  | InsertCode tabID code type codeReference =>
      onCodeInsertToCursorPosition this tabID code type codeReference
  | CopyCode tabID code type codeReference =>
      onCopyCodeToClipboard this tabID code type codeReference
  | OpenDiff tabID leftPath rightPath => onOpenDiff this tabID leftPath rightPath
  | FollowUpClick tabID followUp => followUpClicked this tabID followUp
  | ChatPrompt tabID payload =>
      bind (requestGenerativeAIAnswer this tabID payload) (fun _ => ret tt)
  | StopResponse tabID => onStopChatResponse this tabID
  | TabOpen tabID => onTabOpen this tabID
  | TabRemove tabID => onTabRemove this tabID
  | Vote tabId messageId vote => onChatItemVoted this tabId messageId vote
  end.

(** What the recording transport was given by the call. *)
Definition wire (c : Call) : list Envelope :=
  sent_messages (perform (new_Connector recording_props) c []).2.

(** One key of each envelope on the wire. *)
Definition wire_field (k : string) (c : Call) : list JsVal :=
  (fun e => field e k) <$> wire c.

(** The call without the selection kind that the two code operations take. *)
Definition relayed (c : Call) : Call :=
  match c with
  | InsertCode tabID code _ codeReference => InsertCode tabID code None codeReference
  | CopyCode tabID code _ codeReference => CopyCode tabID code None codeReference
  | _ => c
  end.

(** ** Callbacks that return *)




(** ** Keys read *)

(** Besides [type], the keys of the envelope that each branch of
    [handleMessageReceive] reads. *)
Definition fields_read : list (string * list string) := [
  ("errorMessage", ["tabID"; "message"; "title"]);
  ("showInvalidTokenNotification", ["tabID"; "message"; "title"]);
  ("chatMessage",
     ["tabID"; "messageType"; "message"; "messageID"; "triggerID"; "canBeVoted"; "followUps"]);
  ("filePathMessage", ["tabID"; "filePaths"; "messageID"; "triggerID"; "conversationID"]);
  ("asyncEventProgressMessage", ["tabID"; "inProgress"; "message"]);
  ("updatePlaceholderMessage", ["tabID"; "newPlaceholder"]);
  ("chatInputEnabledMessage", ["tabID"; "enabled"]);
  ("authenticationUpdateMessage", ["featureDevEnabled"])
].

(** Two envelopes of the discriminator [d] that agree on what its branch
    reads. *)
Definition agree_for (d : string) (ks : list string) (m m' : Envelope) : Prop :=
  field m "type" = JStr d
  /\ field m' "type" = JStr d
  /\ forall k, In k ks -> field m' k = field m k.

(** Props that agree on the eight fields the constructor copies. *)
Definition same_copied_fields {W} (p q : ConnectorProps.t W) : Prop :=
  ConnectorProps.sendMessageToExtension p = ConnectorProps.sendMessageToExtension q
  /\ ConnectorProps.onChatAnswerReceived p = ConnectorProps.onChatAnswerReceived q
  /\ ConnectorProps.onWarning p = ConnectorProps.onWarning q
  /\ ConnectorProps.onError p = ConnectorProps.onError q
  /\ ConnectorProps.onAsyncEventProgress p = ConnectorProps.onAsyncEventProgress q
  /\ ConnectorProps.onUpdatePlaceholder p = ConnectorProps.onUpdatePlaceholder q
  /\ ConnectorProps.onChatInputEnabled p = ConnectorProps.onChatInputEnabled q
  /\ ConnectorProps.onUpdateAuthentication p = ConnectorProps.onUpdateAuthentication q.

(** Recording props in which the two callbacks that the constructor does
    not copy are there as well. *)
Definition props_with_everything : ConnectorProps.t (list Event) := {|
  ConnectorProps.sendMessageToExtension := fun message => record (Sent message);
  ConnectorProps.onMessageReceived :=
    Some (fun t _ _ => record (ErrorShown t JNull JNull));
  ConnectorProps.onAsyncEventProgress := Some (fun t p m => record (ProgressShown t p m));
  ConnectorProps.onChatAnswerReceived := Some (fun t item => record (AnswerReceived t item));
  ConnectorProps.sendFeedback := Some (fun t _ => record (WarningShown t JNull JNull));
  ConnectorProps.onError := Some (fun t m title => record (ErrorShown t m title));
  ConnectorProps.onWarning := Some (fun t m title => record (WarningShown t m title));
  ConnectorProps.onUpdatePlaceholder := Some (fun t p => record (PlaceholderUpdated t p));
  ConnectorProps.onChatInputEnabled := Some (fun t e => record (ChatInputSet t e));
  ConnectorProps.onUpdateAuthentication := Some (fun e => record (AuthenticationUpdated e));
|}.

(** ** More sample envelopes *)

Definition text_followUps : Envelope :=
  object_literal [("type", JStr "chatMessage"); ("tabID", JStr "tab-1");
                  ("messageType", JStr "answer"); ("followUps", JStr "Retry")].




Definition failure : Envelope :=
  object_literal [("type", JStr "errorMessage"); ("tabID", JStr "tab-1");
                  ("message", JStr "failed"); ("title", JStr "Error")].

Definition failure_with_more : Envelope :=
  object_literal [("type", JStr "errorMessage"); ("tabID", JStr "tab-1");
                  ("message", JStr "failed"); ("title", JStr "Error");
                  ("followUps", JNull); ("conversationID", JStr "C")].

(** ** Keys on the wire *)

(** The keys of the envelope of each outbound call. *)
Definition wire_keys (c : Call) : gset string :=
  match c with
  | InsertCode _ _ _ _ | CopyCode _ _ _ _ =>
      {[ "tabID"; "code"; "command"; "codeReference"; "tabType" ]}
  | OpenDiff _ _ _ => {[ "command"; "tabID"; "leftPath"; "rightPath"; "tabType" ]}
  | FollowUpClick _ _ => {[ "command"; "followUp"; "tabID"; "tabType" ]}
  | ChatPrompt _ _ => {[ "tabID"; "command"; "chatMessage"; "tabType" ]}
  | StopResponse _ => {[ "tabID"; "command" ]}
  | TabOpen _ | TabRemove _ => {[ "tabID"; "command"; "tabType" ]}
  | Vote _ _ _ => {[ "tabID"; "messageId"; "vote"; "command"; "tabType" ]}
  end.

(** * Properties *)

(** ** Reading values *)

Lemma strict_eq_str_true v lit : strict_eq_str v lit = true <-> v = JStr lit.
Proof.
  destruct v; simpl; try (split; [discriminate | congruence]).
  rewrite bool_decide_eq_true. split; congruence.
Qed.

Lemma strict_eq_str_false v lit : strict_eq_str v lit = false <-> v <> JStr lit.
Proof.
  rewrite <- strict_eq_str_true. destruct (strict_eq_str v lit); split; congruence.
Qed.

Lemma strict_eq_str_refl lit : strict_eq_str (JStr lit) lit = true.
Proof. by apply strict_eq_str_true. Qed.

Lemma coalesce_nullish a b : nullish a = true -> a ?? b = b.
Proof. unfold coalesce. by intros ->. Qed.

Lemma coalesce_present a b : nullish a = false -> a ?? b = a.
Proof. unfold coalesce. by intros ->. Qed.

(** ** Outbound operations *)

Ltac outbound :=
  eexists; split; [intros ? ?; reflexivity | split; reflexivity].

Lemma onCodeInsertToCursorPosition_tagged tabID code type codeReference :
  exists e,
    hands_over (fun W this => onCodeInsertToCursorPosition this tabID code type codeReference) e
    /\ tagged tabID e.
Proof. outbound. Qed.

Lemma onCopyCodeToClipboard_tagged tabID code type codeReference :
  exists e,
    hands_over (fun W this => onCopyCodeToClipboard this tabID code type codeReference) e
    /\ tagged tabID e.
Proof. outbound. Qed.

Lemma onOpenDiff_tagged tabID leftPath rightPath :
  exists e,
    hands_over (fun W this => onOpenDiff this tabID leftPath rightPath) e /\ tagged tabID e.
Proof. outbound. Qed.

Lemma followUpClicked_tagged tabID followUp :
  exists e,
    hands_over (fun W this => followUpClicked this tabID followUp) e /\ tagged tabID e.
Proof. outbound. Qed.

Lemma onTabOpen_tagged tabID :
  exists e, hands_over (fun W this => onTabOpen this tabID) e /\ tagged tabID e.
Proof. outbound. Qed.

Lemma onTabRemove_tagged tabID :
  exists e, hands_over (fun W this => onTabRemove this tabID) e /\ tagged tabID e.
Proof. outbound. Qed.

Lemma onChatItemVoted_tagged tabId messageId vote :
  exists e,
    hands_over (fun W this => onChatItemVoted this tabId messageId vote) e /\ tagged tabId e.
Proof. outbound. Qed.

(** The feedback stub sends nothing. *)
Lemma sendFeedback_silent W tabId feedbackPayload (w : W) :
  sendFeedback tabId feedbackPayload w = (Normal tt, w).
Proof. reflexivity. Qed.

(** C1, at the operation that breaks it: the envelope of
    [onStopChatResponse] names the tab and the command and has no
    [tabType] key at all, unlike the envelope of every other outbound
    operation ([onTabOpen_tagged] and its siblings). *)
Theorem onStopChatResponse_untagged tabID :
  exists e,
    hands_over (fun W this => onStopChatResponse this tabID) e
    /\ e !! "tabID" = Some (JStr tabID)
    /\ e !! "command" = Some (JStr "stop-response")
    /\ e !! "tabType" = None
    /\ ~ tagged tabID e.
Proof.
  eexists. split; [intros ? ?; reflexivity |].
  repeat split; try reflexivity.
  intros [_ H]. discriminate H.
Qed.

(** What the recording transport sees of a stop request for tab ["tab-1"]. *)
Example onStopChatResponse_recorded :
  exists e,
    onStopChatResponse (new_Connector recording_props) "tab-1" [] = (Normal tt, [Sent e])
    /\ field e "tabType" = JUndefined.
Proof. eexists. split; reflexivity. Qed.

(** ** The chat prompt *)

(** C8: [requestGenerativeAIAnswer] passes one envelope to the transport,
    the [chat-prompt] command with the caller's tab, the payload's text and
    the session tag and no other key, and returns a promise that is still
    pending: neither [resolve] nor [reject] is ever called.  (Should the
    transport itself throw, it is the constructor of the promise that
    rejects it, with the transport's exception.) *)
Theorem requestGenerativeAIAnswer_pending tabID payload :
  exists e,
    (e !! "command" = Some (JStr "chat-prompt")
     /\ tagged tabID e
     /\ e !! "chatMessage" = Some (JStr (chatMessage payload))
     /\ dom e = {[ "command"; "tabID"; "chatMessage"; "tabType" ]})
    /\ (forall W (this : Connector W) w,
          requestGenerativeAIAnswer this tabID payload w =
            (Normal (promise_after (sendMessageToExtension this e w).1),
             (sendMessageToExtension this e w).2))
    /\ (forall log,
          requestGenerativeAIAnswer (new_Connector recording_props) tabID payload log =
            (Normal Pending, (log ++ [Sent e])%list)).
Proof.
  exists (object_literal [
    ("tabID", JStr tabID); ("command", JStr "chat-prompt");
    ("chatMessage", JStr (chatMessage payload)); ("tabType", JStr "featuredev")]).
  split; [| split].
  - repeat split; reflexivity.
  - intros W this w. unfold requestGenerativeAIAnswer, new_Promise, outside. simpl.
    destruct (sendMessageToExtension this _ w) as [[[]|err] w']; reflexivity.
  - intros log. reflexivity.
Qed.

(** ** Inbound dispatch *)

Section Dispatch.

Context {W : Type}.
Variables SYSTEM_PROMPT CODE_RESULT : string.
Variable coerced_gt_zero : JsVal -> bool.
Variable this : Connector W.

Local Abbreviation handle := (handleMessageReceive SYSTEM_PROMPT CODE_RESULT coerced_gt_zero this).

(** Rewrites the discriminator tests of [handleMessageReceive] once the
    [type] of the envelope is known. *)
Ltac dispatch H :=
  unfold handleMessageReceive; rewrite H; cbn [strict_eq_str];
  repeat (rewrite bool_decide_eq_false_2 by discriminate);
  rewrite ?bool_decide_eq_true_2 by reflexivity; cbn [await].

Lemma handle_errorMessage m :
  field m "type" = JStr "errorMessage" ->
  handle m =
    call (onError this) (fun f => f (field m "tabID") (field m "message") (field m "title")).
Proof. intros H. dispatch H. reflexivity. Qed.

Lemma handle_showInvalidTokenNotification m :
  field m "type" = JStr "showInvalidTokenNotification" ->
  handle m =
    call (onWarning this) (fun f => f (field m "tabID") (field m "message") (field m "title")).
Proof. intros H. dispatch H. reflexivity. Qed.

Lemma handle_chatMessage m :
  field m "type" = JStr "chatMessage" ->
  handle m = processChatMessage SYSTEM_PROMPT coerced_gt_zero this m.
Proof. intros H. dispatch H. reflexivity. Qed.

Lemma handle_filePathMessage m :
  field m "type" = JStr "filePathMessage" ->
  handle m = processFilePathMessage CODE_RESULT this m.
Proof. intros H. dispatch H. reflexivity. Qed.

Lemma handle_asyncEventProgressMessage m :
  field m "type" = JStr "asyncEventProgressMessage" ->
  handle m =
    call (onAsyncEventProgress this) (fun f =>
      f (field m "tabID") (field m "inProgress") (field m "message" ?? JUndefined)).
Proof. intros H. dispatch H. reflexivity. Qed.

Lemma handle_updatePlaceholderMessage m :
  field m "type" = JStr "updatePlaceholderMessage" ->
  handle m =
    call (updatePlaceholder this) (fun f => f (field m "tabID") (field m "newPlaceholder")).
Proof. intros H. dispatch H. reflexivity. Qed.

Lemma handle_chatInputEnabledMessage m :
  field m "type" = JStr "chatInputEnabledMessage" ->
  handle m = call (chatInputEnabled this) (fun f => f (field m "tabID") (field m "enabled")).
Proof. intros H. dispatch H. reflexivity. Qed.

Lemma handle_authenticationUpdateMessage m :
  field m "type" = JStr "authenticationUpdateMessage" ->
  handle m = call (onUpdateAuthentication this) (fun f => f (field m "featureDevEnabled")).
Proof. intros H. dispatch H. reflexivity. Qed.

(** *** The follow-up test *)

Lemma defined_and_nonempty_undefined :
  defined_and_nonempty coerced_gt_zero JUndefined = Normal false.
Proof. reflexivity. Qed.

Lemma defined_and_nonempty_array l :
  defined_and_nonempty coerced_gt_zero (JArr l) =
    Normal (match l with [] => false | _ :: _ => true end).
Proof. destruct l; reflexivity. Qed.

(** Reading [length] off [null] is the one way the test can fault. *)
Lemma defined_and_nonempty_null :
  defined_and_nonempty coerced_gt_zero JNull = Throw TypeError.
Proof. reflexivity. Qed.


(** *** The two message processors *)

Lemma processChatMessage_omitted m w :
  onChatAnswerReceived this = None ->
  processChatMessage SYSTEM_PROMPT coerced_gt_zero this m w = (Normal tt, w).
Proof. intros H. unfold processChatMessage. rewrite H. reflexivity. Qed.

Lemma processFilePathMessage_omitted m w :
  onChatAnswerReceived this = None ->
  processFilePathMessage CODE_RESULT this m w = (Normal tt, w).
Proof. intros H. unfold processFilePathMessage. rewrite H. reflexivity. Qed.

Lemma processChatMessage_registered f m hasFollowUps w :
  onChatAnswerReceived this = Some f ->
  defined_and_nonempty coerced_gt_zero (field m "followUps") = Normal hasFollowUps ->
  processChatMessage SYSTEM_PROMPT coerced_gt_zero this m w =
    f (field m "tabID") {|
      type := field m "messageType";
      body := field m "message" ?? JUndefined;
      messageId := field m "messageID" ?? field m "triggerID" ?? JStr "";
      relatedContent := JUndefined;
      canBeVoted := field m "canBeVoted";
      followUp :=
        if hasFollowUps then
          Some {|
            text :=
              if strict_eq_str (field m "messageType") SYSTEM_PROMPT
              then "" else "Please follow up with one of these";
            options := field m "followUps";
          |}
        else None;
    |} w.
Proof.
  intros Hf Hlen. unfold processChatMessage. rewrite Hf, Hlen.
  rewrite bool_decide_eq_true_2 by eauto. reflexivity.
Qed.

Lemma processChatMessage_fault f m e w :
  onChatAnswerReceived this = Some f ->
  defined_and_nonempty coerced_gt_zero (field m "followUps") = Throw e ->
  processChatMessage SYSTEM_PROMPT coerced_gt_zero this m w = (Throw e, w).
Proof.
  intros Hf Hlen. unfold processChatMessage. rewrite Hf, Hlen.
  rewrite bool_decide_eq_true_2 by eauto. reflexivity.
Qed.

Lemma processFilePathMessage_registered f m w :
  onChatAnswerReceived this = Some f ->
  processFilePathMessage CODE_RESULT this m w =
    f (field m "tabID") {|
      type := JStr CODE_RESULT;
      body := field m "filePaths";
      messageId := field m "messageID" ?? field m "triggerID" ?? field m "conversationID";
      relatedContent := JUndefined;
      canBeVoted := JBool true;
      followUp := None;
    |} w.
Proof.
  intros Hf. unfold processFilePathMessage. rewrite Hf.
  rewrite bool_decide_eq_true_2 by eauto. reflexivity.
Qed.

End Dispatch.

(** *** What a call of [handleMessageReceive] can amount to *)

Lemma defined_and_nonempty_throws coerced v e :
  defined_and_nonempty coerced v = Throw e -> e = TypeError.
Proof.
  unfold defined_and_nonempty. destruct v; cbn; intros H; try discriminate H.
  by injection H.
Qed.

Lemma processChatMessage_outcome {W} SP coerced (this : Connector W) m :
  Outcome this (processChatMessage SP coerced this m).
Proof.
  destruct (onChatAnswerReceived this) as [f|] eqn:Hf.
  - destruct (defined_and_nonempty coerced (field m "followUps")) as [b|e] eqn:Hlen.
    + eapply Called_onChatAnswerReceived; [exact Hf |].
      intros w. by apply processChatMessage_registered.
    + apply Faulted. intros w.
      rewrite (processChatMessage_fault SP coerced this f m e w Hf Hlen).
      by rewrite (defined_and_nonempty_throws _ _ _ Hlen).
  - apply Dropped. intros w. by apply processChatMessage_omitted.
Qed.

Lemma processFilePathMessage_outcome {W} CR (this : Connector W) m :
  Outcome this (processFilePathMessage CR this m).
Proof.
  destruct (onChatAnswerReceived this) as [f|] eqn:Hf.
  - eapply Called_onChatAnswerReceived; [exact Hf |].
    intros w. by apply processFilePathMessage_registered.
  - apply Dropped. intros w. by apply processFilePathMessage_omitted.
Qed.

Lemma handleMessageReceive_outcome {W} SP CR coerced (this : Connector W) m :
  Outcome this (handleMessageReceive SP CR coerced this m).
Proof.
  unfold handleMessageReceive, await.
  repeat match goal with
         | |- Outcome _ (if strict_eq_str ?v ?lit then _ else _) =>
             destruct (strict_eq_str v lit)
         end;
    try apply processChatMessage_outcome;
    try apply processFilePathMessage_outcome;
    try (apply Dropped; reflexivity);
    match goal with
    | |- Outcome _ (call ?slot _) =>
        destruct slot as [f|] eqn:Hf; [| apply Faulted; reflexivity]
    end.
  - eapply Called_onError; [exact Hf | reflexivity].
  - eapply Called_onWarning; [exact Hf | reflexivity].
  - eapply Called_onAsyncEventProgress; [exact Hf | reflexivity].
  - eapply Called_updatePlaceholder; [exact Hf | reflexivity].
  - eapply Called_chatInputEnabled; [exact Hf | reflexivity].
  - eapply Called_onUpdateAuthentication; [exact Hf | reflexivity].
Qed.

(** ** Unrecognised envelopes *)

(** C7: an envelope whose [type] is none of the eight discriminators (a
    different string, no string, or missing) is ignored: the call returns
    normally and the world is as it was, whatever callbacks are
    registered. *)
Theorem handleMessageReceive_unrecognised {W} SP CR coerced (this : Connector W) m w :
  (forall d, In d discriminators -> field m "type" <> JStr d) ->
  handleMessageReceive SP CR coerced this m w = (Normal tt, w).
Proof.
  intros Hno. unfold handleMessageReceive.
  repeat match goal with
         | |- context [strict_eq_str ?v ?lit] =>
             rewrite (proj2 (strict_eq_str_false v lit))
               by (apply Hno; simpl; tauto)
         end.
  reflexivity.
Qed.

Lemma handleMessageReceive_unrecognised_witness :
  handleMessageReceive "system-prompt" "code-result" (fun _ => false)
    (new_Connector recording_props)
    (object_literal [("type", JStr "openSettingsMessage"); ("tabID", JStr "tab-1")]) []
  = (Normal tt, []).
Proof.
  apply (handleMessageReceive_unrecognised "system-prompt" "code-result" (fun _ => false)
           (new_Connector recording_props)
           (object_literal [("type", JStr "openSettingsMessage"); ("tabID", JStr "tab-1")]) []).
  intros d Hd. vm_compute in Hd. vm_compute.
  intros Heq. injection Heq as <-.
  repeat (destruct Hd as [Hd | Hd]; [discriminate Hd |]). exact Hd.
Defined.

(** An envelope without a [type], and one whose [type] is not a string. *)
Example handleMessageReceive_untyped :
  handleMessageReceive "system-prompt" "code-result" (fun _ => false)
    (new_Connector recording_props) (object_literal [("tabID", JStr "tab-1")]) [] = (Normal tt, [])
  /\ handleMessageReceive "system-prompt" "code-result" (fun _ => false)
       (new_Connector bare_props) (object_literal [("type", JNum 3)]) [] = (Normal tt, []).
Proof. split; reflexivity. Qed.

(** ** Inbound processing does not send *)

(** C10: [handleMessageReceive] never calls [sendMessageToExtension].
    Its result does not depend on the transport, for any envelope and any
    callbacks; and when the transport and the callbacks all record their
    calls, the call adds no sent envelope to the record, and at most one
    entry in all. *)
Theorem handleMessageReceive_never_sends :
  (forall W SP CR coerced (this : Connector W) send m,
      handleMessageReceive SP CR coerced (with_transport send this) m =
      handleMessageReceive SP CR coerced this m)
  /\ (forall SP CR coerced m log,
        exists added,
          (handleMessageReceive SP CR coerced (new_Connector recording_props) m log).2
            = (log ++ added)%list
          /\ sent_messages added = []
          /\ length added <= 1).
Proof.
  split.
  - intros. reflexivity.
  - intros SP CR coerced m log.
    destruct (handleMessageReceive_outcome SP CR coerced (new_Connector recording_props) m)
      as [H | H | f a b c Hf H | f a b c Hf H | f a b Hf H | f a b c Hf H
          | f a b Hf H | f a b Hf H | f a Hf H];
      rewrite H;
      try (exists []; rewrite app_nil_r; repeat split; simpl; lia);
      injection Hf as <-;
      (eexists [_]; repeat split; simpl; lia).
Qed.

(** ** Omitted callbacks *)

(** X7: a required callback that was left out all the same is called
    unguarded: the call is a [TypeError], which rejects the promise of
    [handleMessageReceive], and the world is as it was. *)
Lemma required_callback_omitted {W} SP CR coerced (s : Slot) (props : ConnectorProps.t W) d m w :
  s <> Slot_onChatAnswerReceived ->
  omitted s props ->
  In d (served_by s) ->
  field m "type" = JStr d ->
  handleMessageReceive SP CR coerced (new_Connector props) m w = (Throw TypeError, w).
Proof.
  intros Hs Hom Hd Hty.
  destruct s; try congruence; simpl in Hom, Hd;
    destruct Hd as [<- | []].
  - rewrite handle_asyncEventProgressMessage by done. simpl. by rewrite Hom.
  - rewrite handle_errorMessage by done. simpl. by rewrite Hom.
  - rewrite handle_showInvalidTokenNotification by done. simpl. by rewrite Hom.
  - rewrite handle_updatePlaceholderMessage by done. simpl. by rewrite Hom.
  - rewrite handle_chatInputEnabledMessage by done. simpl. by rewrite Hom.
  - rewrite handle_authenticationUpdateMessage by done. simpl. by rewrite Hom.
Qed.

(** C2 does not hold as worded: with [onError] left out, an [errorMessage]
    envelope is not dropped; the call faults. *)
Lemma omitted_onError_faults :
  ~ every_omitted_callback_drops (list Event).
Proof.
  intros Hclaim.
  specialize (Hclaim "system-prompt" "code-result" (fun _ => false)
                Slot_onError bare_props "errorMessage"
                (object_literal [("type", JStr "errorMessage"); ("tabID", JStr "tab-1")])
                eq_refl (or_introl eq_refl) eq_refl []).
  vm_compute in Hclaim. discriminate Hclaim.
Qed.

(** C2, amended: [onChatAnswerReceived] is the one guarded slot.  When it
    is left out, a [chatMessage] or [filePathMessage] envelope runs no
    callback, raises nothing and changes nothing. *)
Theorem omitted_onChatAnswerReceived_drops {W} SP CR coerced (props : ConnectorProps.t W) d m :
  omitted Slot_onChatAnswerReceived props ->
  In d (served_by Slot_onChatAnswerReceived) ->
  field m "type" = JStr d ->
  silently_dropped SP CR coerced (new_Connector props) m.
Proof.
  intros Hom Hd Hty w. simpl in Hom, Hd.
  destruct Hd as [<- | [<- | []]].
  - rewrite handle_chatMessage by done. by apply processChatMessage_omitted.
  - rewrite handle_filePathMessage by done. by apply processFilePathMessage_omitted.
Qed.

Lemma omitted_onChatAnswerReceived_drops_witness :
  silently_dropped "system-prompt" "code-result" (fun _ => false)
    (new_Connector bare_props)
    (object_literal [("type", JStr "chatMessage"); ("tabID", JStr "tab-1");
                     ("message", JStr "hello"); ("followUps", JNull)]).
Proof.
  apply (omitted_onChatAnswerReceived_drops "system-prompt" "code-result" (fun _ => false)
           bare_props "chatMessage").
  - reflexivity.
  - simpl. tauto.
  - reflexivity.
Defined.

(** ** The message identifier *)


(** The operator associates either way. *)
Lemma coalesce_assoc a b c : a ?? b ?? c = a ?? (b ?? c).
Proof. by destruct a. Qed.




(** The four cases the spec lists. *)
Example message_id_cases :
  recorded_message_id
    (recorded_run [("type", JStr "chatMessage"); ("messageID", JStr "A");
                   ("triggerID", JStr "B")]) = Some (JStr "A")
  /\ recorded_message_id
       (recorded_run [("type", JStr "chatMessage"); ("triggerID", JStr "B")])
     = Some (JStr "B")
  /\ recorded_message_id (recorded_run [("type", JStr "chatMessage")]) = Some (JStr "")
  /\ recorded_message_id
       (recorded_run [("type", JStr "filePathMessage"); ("conversationID", JStr "C")])
     = Some (JStr "C").
Proof. repeat split; reflexivity. Qed.

(** ** Follow-ups of a chat message *)

(** C4: for a [chatMessage] envelope the chat item handed to the callback
    has no follow-up when [followUps] is missing or the empty array; when
    it is a non-empty array the follow-up has that array as its options,
    and its label is empty for a [messageType] equal to
    [ChatItemType.SYSTEM_PROMPT] and the fixed prompt for any other.  The
    code breaks this for the other way of being absent: the guard tests
    [followUps !== undefined] only, so a [followUps] that is [null] gives
    no chat item at all; reading its [length] raises a [TypeError] and the
    callback is never called. *)
Theorem chatMessage_followUp SP CR coerced m :
  field m "type" = JStr "chatMessage" ->
  (field m "followUps" = JUndefined \/ field m "followUps" = JArr [] ->
   exists item,
     followUp item = None
     /\ forall W (this : Connector W) f w,
          onChatAnswerReceived this = Some f ->
          handleMessageReceive SP CR coerced this m w = f (field m "tabID") item w)
  /\ (forall x l,
        field m "followUps" = JArr (x :: l) ->
        exists item label,
          followUp item = Some {| text := label; options := JArr (x :: l) |}
          /\ (field m "messageType" = JStr SP -> label = "")
          /\ (field m "messageType" <> JStr SP ->
              label = "Please follow up with one of these")
          /\ forall W (this : Connector W) f w,
               onChatAnswerReceived this = Some f ->
               handleMessageReceive SP CR coerced this m w = f (field m "tabID") item w)
  /\ (field m "followUps" = JNull ->
      forall W (this : Connector W) f w,
        onChatAnswerReceived this = Some f ->
        handleMessageReceive SP CR coerced this m w = (Throw TypeError, w)).
Proof.
  intros Hty. split; [| split]; cycle 2.
  - intros Hnull W this f w Hf. rewrite handle_chatMessage by done.
    apply (processChatMessage_fault SP coerced this f); [done |].
    rewrite Hnull. reflexivity.
  - intros Hnone.
    assert (Hlen : defined_and_nonempty coerced (field m "followUps") = Normal false)
      by (destruct Hnone as [-> | ->]; reflexivity).
    eexists. split; [| intros W this f w Hf; rewrite handle_chatMessage by done;
                       by apply processChatMessage_registered].
    reflexivity.
  - intros x l Hsome.
    assert (Hlen : defined_and_nonempty coerced (field m "followUps") = Normal true)
      by (rewrite Hsome; reflexivity).
    eexists. eexists. split; [| split; [| split]]; cycle 3.
    + intros W this f w Hf. rewrite handle_chatMessage by done.
      by apply processChatMessage_registered.
    + simpl. rewrite Hsome. reflexivity.
    + intros Hsp. by rewrite (proj2 (strict_eq_str_true _ _) Hsp).
    + intros Hsp. by rewrite (proj2 (strict_eq_str_false _ _) Hsp).
Qed.

Lemma chatMessage_followUp_witness :
  (exists item,
     followUp item = None
     /\ handleMessageReceive "system-prompt" "code-result" (fun _ => false)
          (new_Connector recording_props) answer_without_followUps []
        = (Normal tt, [AnswerReceived (JStr "tab-1") item]))
  /\ (exists item,
        followUp item =
          Some {| text := ""; options := JArr [JObj [("pillText", JStr "Retry")]] |}
        /\ handleMessageReceive "system-prompt" "code-result" (fun _ => false)
             (new_Connector recording_props) prompt_with_followUps []
           = (Normal tt, [AnswerReceived (JStr "tab-1") item]))
  /\ handleMessageReceive "system-prompt" "code-result" (fun _ => false)
       (new_Connector recording_props) null_followUps []
     = (Throw TypeError, []).
Proof.
  split; [| split]; cycle 2.
  - apply (proj2 (proj2 (chatMessage_followUp "system-prompt" "code-result"
                           (fun _ => false) null_followUps eq_refl))
             eq_refl _ (new_Connector recording_props)
             (fun t item => record (AnswerReceived t item)) [] eq_refl).
  - destruct (proj1 (chatMessage_followUp "system-prompt" "code-result" (fun _ => false)
                       answer_without_followUps eq_refl) (or_intror eq_refl))
      as [item [Hnone Hrun]].
    exists item. split; [exact Hnone |].
    rewrite (Hrun _ (new_Connector recording_props)
               (fun t item => record (AnswerReceived t item)) [] eq_refl).
    reflexivity.
  - destruct (proj1 (proj2 (chatMessage_followUp "system-prompt" "code-result"
                              (fun _ => false) prompt_with_followUps eq_refl))
                _ _ eq_refl)
      as [item [label [Hsome [Hsp [_ Hrun]]]]].
    exists item. split; [rewrite Hsome, (Hsp eq_refl); reflexivity |].
    rewrite (Hrun _ (new_Connector recording_props)
               (fun t item => record (AnswerReceived t item)) [] eq_refl).
    reflexivity.
Defined.

(** ** File-path messages *)

(** C5: for a [filePathMessage] envelope, with the answer callback
    registered, the chat item handed to it has the type
    [ChatItemType.CODE_RESULT], the envelope's [filePaths] as its body, and
    [canBeVoted] set to [true], whatever else the envelope holds. *)
Theorem filePathMessage_item SP CR coerced m :
  field m "type" = JStr "filePathMessage" ->
  exists item,
    (type item = JStr CR
     /\ body item = field m "filePaths"
     /\ canBeVoted item = JBool true)
    /\ forall W (this : Connector W) f w,
         onChatAnswerReceived this = Some f ->
         handleMessageReceive SP CR coerced this m w = f (field m "tabID") item w.
Proof.
  intros Hty. eexists. split; cycle 1.
  - intros W this f w Hf. rewrite handle_filePathMessage by done.
    by apply processFilePathMessage_registered.
  - repeat split.
Qed.

Lemma filePathMessage_item_witness :
  exists item,
    (type item = JStr "code-result"
     /\ body item = JArr [JStr "src/a.ts"; JStr "src/b.ts"]
     /\ canBeVoted item = JBool true)
    /\ handleMessageReceive "system-prompt" "code-result" (fun _ => false)
         (new_Connector recording_props) generated_files []
       = (Normal tt, [AnswerReceived (JStr "tab-1") item]).
Proof.
  destruct (filePathMessage_item "system-prompt" "code-result" (fun _ => false)
              generated_files eq_refl) as [item [Hitem Hrun]].
  exists item. split; [exact Hitem |].
  rewrite (Hrun _ (new_Connector recording_props)
             (fun t item => record (AnswerReceived t item)) [] eq_refl).
  reflexivity.
Defined.

(** C9: the chat item of a [filePathMessage] envelope never has a
    follow-up, not even when the envelope carries a non-empty [followUps]
    (or one that is [null]). *)
Theorem filePathMessage_no_followUp SP CR coerced m :
  field m "type" = JStr "filePathMessage" ->
  exists item,
    followUp item = None
    /\ forall W (this : Connector W) f w,
         onChatAnswerReceived this = Some f ->
         handleMessageReceive SP CR coerced this m w = f (field m "tabID") item w.
Proof.
  intros Hty. eexists. split; cycle 1.
  - intros W this f w Hf. rewrite handle_filePathMessage by done.
    by apply processFilePathMessage_registered.
  - reflexivity.
Qed.

Lemma filePathMessage_no_followUp_witness :
  field generated_files "followUps" = JArr [JObj [("pillText", JStr "Accept")]]
  /\ exists item,
       followUp item = None
       /\ handleMessageReceive "system-prompt" "code-result" (fun _ => false)
            (new_Connector recording_props) generated_files []
          = (Normal tt, [AnswerReceived (JStr "tab-1") item]).
Proof.
  split; [reflexivity |].
  destruct (filePathMessage_no_followUp "system-prompt" "code-result" (fun _ => false)
              generated_files eq_refl) as [item [Hnone Hrun]].
  exists item. split; [exact Hnone |].
  rewrite (Hrun _ (new_Connector recording_props)
             (fun t item => record (AnswerReceived t item)) [] eq_refl).
  reflexivity.
Defined.

(** ** The dispatch table *)





(** * Further properties *)

(** ** Follow-ups that are not arrays *)

(** X1: a [chatMessage] whose [followUps] is [null] never reaches the
    answer callback that is registered for it: reading [followUps.length]
    raises a [TypeError], the promise of [handleMessageReceive] is rejected
    with it, and the world is as it was. *)
Theorem chatMessage_null_followUps_faults {W} SP CR coerced (this : Connector W) f m w :
  field m "type" = JStr "chatMessage" ->
  onChatAnswerReceived this = Some f ->
  field m "followUps" = JNull ->
  handleMessageReceive SP CR coerced this m w = (Throw TypeError, w).
Proof.
  intros Hty Hf Hnull. rewrite handle_chatMessage by done.
  apply (processChatMessage_fault SP coerced this f); [done |].
  rewrite Hnull. reflexivity.
Qed.

Lemma chatMessage_null_followUps_faults_witness :
  handleMessageReceive "system-prompt" "code-result" (fun _ => false)
    (new_Connector recording_props) null_followUps [] = (Throw TypeError, []).
Proof.
  apply (chatMessage_null_followUps_faults "system-prompt" "code-result" (fun _ => false)
           (new_Connector recording_props)
           (fun t item => record (AnswerReceived t item)) null_followUps []);
    reflexivity.
Defined.

(** X2: the follow-up test looks at [length] only, so a [followUps] that is
    a boolean, a number or the empty string gives a chat item without a
    follow-up, and one that is a non-empty string gives a follow-up whose
    options are that string. *)
Theorem chatMessage_scalar_followUps SP CR coerced m :
  field m "type" = JStr "chatMessage" ->
  ((exists b, field m "followUps" = JBool b)
   \/ (exists n, field m "followUps" = JNum n)
   \/ field m "followUps" = JStr "" ->
   exists item,
     followUp item = None
     /\ forall W (this : Connector W) f w,
          onChatAnswerReceived this = Some f ->
          handleMessageReceive SP CR coerced this m w = f (field m "tabID") item w)
  /\ (forall c s,
        field m "followUps" = JStr (String c s) ->
        exists item,
          followUp item =
            Some {| text := if strict_eq_str (field m "messageType") SP then ""
                            else "Please follow up with one of these";
                    options := JStr (String c s) |}
          /\ forall W (this : Connector W) f w,
               onChatAnswerReceived this = Some f ->
               handleMessageReceive SP CR coerced this m w = f (field m "tabID") item w).
Proof.
  intros Hty. split.
  - intros Hscalar.
    assert (Hlen : defined_and_nonempty coerced (field m "followUps") = Normal false)
      by (destruct Hscalar as [[b ->] | [[n ->] | ->]]; reflexivity).
    eexists. split; [| intros W this f w Hf; rewrite handle_chatMessage by done;
                       by apply processChatMessage_registered].
    reflexivity.
  - intros c s Htext.
    assert (Hlen : defined_and_nonempty coerced (field m "followUps") = Normal true).
    { rewrite Htext. reflexivity. }
    eexists. split; [| intros W this f w Hf; rewrite handle_chatMessage by done;
                       by apply processChatMessage_registered].
    simpl. by rewrite Htext.
Qed.

Lemma chatMessage_scalar_followUps_witness :
  exists item,
    followUp item =
      Some {| text := "Please follow up with one of these"; options := JStr "Retry" |}
    /\ handleMessageReceive "system-prompt" "code-result" (fun _ => false)
         (new_Connector recording_props) text_followUps []
       = (Normal tt, [AnswerReceived (JStr "tab-1") item]).
Proof.
  destruct (proj2 (chatMessage_scalar_followUps "system-prompt" "code-result"
                     (fun _ => false) text_followUps eq_refl) _ _ eq_refl)
    as [item [Hsome Hrun]].
  exists item. split; [rewrite Hsome; reflexivity |].
  rewrite (Hrun _ (new_Connector recording_props)
             (fun t item => record (AnswerReceived t item)) [] eq_refl).
  reflexivity.
Defined.

(** ** Values that are never [null] *)





(** ** When the connector itself faults *)





(** ** What an envelope is read for *)

(** X6: each branch of [handleMessageReceive] reads the keys listed for
    its discriminator in [fields_read] and nothing else: two envelopes of
    the same discriminator that agree on those keys are handled alike,
    whatever else they carry and whatever the callbacks are. *)
Theorem handleMessageReceive_reads_only SP CR coerced d ks m m' :
  In (d, ks) fields_read ->
  agree_for d ks m m' ->
  forall W (this : Connector W),
    handleMessageReceive SP CR coerced this m' = handleMessageReceive SP CR coerced this m.
Proof.
  intros Hin (Hty & Hty' & Hk) W this. simpl in Hin.
  repeat (destruct Hin as [Hin | Hin]; [injection Hin as <- <- |]); [.. | done].
  - rewrite !handle_errorMessage by done.
    by rewrite !Hk by (simpl; tauto).
  - rewrite !handle_showInvalidTokenNotification by done.
    by rewrite !Hk by (simpl; tauto).
  - rewrite !handle_chatMessage by done. unfold processChatMessage.
    by rewrite !Hk by (simpl; tauto).
  - rewrite !handle_filePathMessage by done. unfold processFilePathMessage.
    by rewrite !Hk by (simpl; tauto).
  - rewrite !handle_asyncEventProgressMessage by done.
    by rewrite !Hk by (simpl; tauto).
  - rewrite !handle_updatePlaceholderMessage by done.
    by rewrite !Hk by (simpl; tauto).
  - rewrite !handle_chatInputEnabledMessage by done.
    by rewrite !Hk by (simpl; tauto).
  - rewrite !handle_authenticationUpdateMessage by done.
    by rewrite !Hk by (simpl; tauto).
Qed.

Lemma handleMessageReceive_reads_only_witness :
  handleMessageReceive "system-prompt" "code-result" (fun _ => false)
    (new_Connector recording_props) failure_with_more
  = handleMessageReceive "system-prompt" "code-result" (fun _ => false)
      (new_Connector recording_props) failure.
Proof.
  apply (handleMessageReceive_reads_only "system-prompt" "code-result" (fun _ => false)
           "errorMessage" ["tabID"; "message"; "title"] failure failure_with_more).
  - simpl. tauto.
  - repeat split; try reflexivity.
    intros k Hk. simpl in Hk.
    repeat (destruct Hk as [<- | Hk]; [reflexivity |]). destruct Hk.
Defined.

(** ** The promise of a chat prompt *)

(** X8: whatever the transport does, [requestGenerativeAIAnswer] returns
    a promise (it never throws, not even when the transport does) and that
    promise is never fulfilled: a caller that awaits it is never resumed
    with a value. *)
Theorem requestGenerativeAIAnswer_never_fulfilled {W} (this : Connector W) tabID payload w :
  exists p,
    (requestGenerativeAIAnswer this tabID payload w).1 = Normal p
    /\ forall v, p <> Fulfilled v.
Proof.
  unfold requestGenerativeAIAnswer, new_Promise, outside. simpl.
  destruct (sendMessageToExtension this _ w) as [[[] | e] w'];
    eexists; (split; [reflexivity | discriminate]).
Qed.

(** ** Envelopes on the wire *)

Lemma wire_field_eq k c c' : wire c = wire c' -> wire_field k c = wire_field k c'.
Proof. unfold wire_field. by intros ->. Qed.

Lemma of_optional_string_inj a b : of_optional_string a = of_optional_string b -> a = b.
Proof. destruct a, b; simpl; congruence. Qed.

Lemma of_optional_array_inj a b : of_optional_array a = of_optional_array b -> a = b.
Proof. destruct a, b; simpl; congruence. Qed.

Lemma ChatPayload_eq p q : chatMessage p = chatMessage q -> p = q.
Proof. destruct p, q; simpl; congruence. Qed.

(** Reads the key [k] off both sides of an equation between wires. *)
Ltac read_wire H k :=
  let Hk := fresh "Hk" in
  pose proof (wire_field_eq k _ _ H) as Hk;
  vm_compute in Hk;
  injection Hk as Hk.

(** X9: the envelope tells the host which operation was called and with
    which arguments, the selection kind of the two code operations apart,
    which is never sent: two calls put the same envelope on the wire
    exactly when they are the same operation with the same relayed
    arguments. *)
Theorem wire_determines_call c c' :
  wire c = wire c' <-> relayed c = relayed c'.
Proof.
  split.
  - intros H.
    pose proof (wire_field_eq "command" _ _ H) as Hcommand.
    destruct c, c'; vm_compute in Hcommand; try discriminate Hcommand;
      clear Hcommand; simpl.
    + read_wire H "tabID". read_wire H "code". read_wire H "codeReference".
      apply of_optional_string_inj in Hk0. apply of_optional_array_inj in Hk1.
      congruence.
    + read_wire H "tabID". read_wire H "code". read_wire H "codeReference".
      apply of_optional_string_inj in Hk0. apply of_optional_array_inj in Hk1.
      congruence.
    + read_wire H "tabID". read_wire H "leftPath". read_wire H "rightPath". congruence.
    + read_wire H "tabID". read_wire H "followUp". congruence.
    + read_wire H "tabID". read_wire H "chatMessage".
      apply ChatPayload_eq in Hk0. congruence.
    + read_wire H "tabID". congruence.
    + read_wire H "tabID". congruence.
    + read_wire H "tabID". congruence.
    + read_wire H "tabID". read_wire H "messageId". read_wire H "vote". congruence.
  - intros H. destruct c, c'; try discriminate H; simpl in H;
      injection H as <-; subst; reflexivity.
Qed.

(** X10: every outbound call hands one envelope to the transport, whose
    keys are those of [wire_keys] whatever the arguments are, and does
    nothing else: on any connector, if the transport returns normally on
    that envelope, the call returns normally in the world the transport
    left.  In particular a code operation called without [code] and
    [codeReference] still sends both keys, holding [undefined]. *)
Theorem wire_shape c :
  exists e,
    dom e = wire_keys c
    /\ (forall tabID type,
          c = InsertCode tabID None type None \/ c = CopyCode tabID None type None ->
          e !! "code" = Some JUndefined /\ e !! "codeReference" = Some JUndefined)
    /\ (forall W (this : Connector W) w w',
          sendMessageToExtension this e w = (Normal tt, w') ->
          perform this c w = (Normal tt, w'))
    /\ (forall log,
          perform (new_Connector recording_props) c log
          = (Normal tt, (log ++ [Sent e])%list)).
Proof.
  destruct c; eexists; (split; [| split; [| split]]); cycle 3;
    try (intros log; reflexivity);
    try reflexivity;
    try (intros t ty [Hc | Hc]; try discriminate Hc;
         injection Hc as -> -> -> ->; split; reflexivity);
    intros W this w w' Hsend;
    try exact Hsend.
  cbv [perform requestGenerativeAIAnswer new_Promise outside bind ret].
  cbn [fst snd]. rewrite Hsend. reflexivity.
Qed.

Lemma wire_shape_witness :
  exists e,
    e !! "code" = Some JUndefined
    /\ e !! "codeReference" = Some JUndefined
    /\ perform (new_Connector recording_props)
         (InsertCode "tab-1" None (Some "block") None) []
       = (Normal tt, [Sent e]).
Proof.
  destruct (wire_shape (InsertCode "tab-1" None (Some "block") None))
    as [e (_ & Hundefined & Hany & _)].
  exists e.
  destruct (Hundefined "tab-1" (Some "block") (or_introl eq_refl)) as [Hcode Hreference].
  repeat split; [exact Hcode | exact Hreference |].
  apply (Hany _ (new_Connector recording_props) [] [Sent e]).
  reflexivity.
Defined.

(** ** The constructor *)

(** X11: a connector is made of eight of the props and of nothing else:
    two sets of props build the same connector exactly when they agree on
    the transport and on the seven callbacks that the constructor copies.
    [onMessageReceived] and [sendFeedback] make no difference. *)
Theorem constructor_copies_eight_fields {W} (p q : ConnectorProps.t W) :
  new_Connector p = new_Connector q <-> same_copied_fields p q.
Proof.
  unfold same_copied_fields. destruct p, q; simpl. split.
  - intros H. injection H as -> -> -> -> -> -> -> ->. repeat split.
  - intros (-> & -> & -> & -> & -> & -> & -> & ->). reflexivity.
Qed.

Lemma constructor_copies_eight_fields_witness :
  new_Connector props_with_everything = new_Connector recording_props.
Proof.
  apply (proj2 (constructor_copies_eight_fields props_with_everything recording_props)).
  repeat split.
Defined.

Lemma required_callback_omitted_witness :
  handleMessageReceive "system-prompt" "code-result" (fun _ => false)
    (new_Connector bare_props) failure [] = (Throw TypeError, []).
Proof.
  apply (required_callback_omitted "system-prompt" "code-result" (fun _ => false)
           Slot_onError bare_props "errorMessage" failure []).
  - discriminate.
  - reflexivity.
  - simpl. tauto.
  - reflexivity.
Defined.

Lemma wire_determines_call_witness :
  wire (InsertCode "tab-1" (Some "let x = 1") (Some "selection") None)
  = wire (InsertCode "tab-1" (Some "let x = 1") (Some "block") None).
Proof.
  apply (proj2 (wire_determines_call
                  (InsertCode "tab-1" (Some "let x = 1") (Some "selection") None)
                  (InsertCode "tab-1" (Some "let x = 1") (Some "block") None))).
  reflexivity.
Defined.
